(** * Swiss-system tournament scheduler: standings and pairings

    A shallow embedding of [tournament.py].  The PostgreSQL store is a
    record holding the two tables; every library function that reads the
    store is a function of that record, every function that writes to it
    returns the new record.  Python exceptions are the left summand of
    [Py.result].  Opening, committing and closing the connection is not
    modelled: a call sees the tables as the calls before it left them. *)

From Stdlib Require Import List ZArith String Bool Lia Permutation.
From Stdlib Require Import Sorting.Sorted.
From Equations Require Import Equations.
Import ListNotations.
Open Scope Z_scope.

(** ** Python values that may raise *)

Module Py.

Inductive exn : Type :=
| TypeError   (* subscripting [None] *)
| IndexError. (* list index out of range *)

Definition result (A : Type) : Type := (exn + A)%type.

Definition ret {A} (a : A) : result A := inr a.
Definition raise {A} (e : exn) : result A := inl e.

Definition bind {A B} (m : result A) (k : A -> result B) : result B :=
  match m with
  | inl e => inl e
  | inr a => k a
  end.

(** [len(l)] *)
Definition len {A} (l : list A) : Z := Z.of_nat (List.length l).

(** [l[i]]: a negative index counts from the end, an index outside
    [-len(l) .. len(l)-1] raises [IndexError]. *)
Definition getitem {A} (l : list A) (i : Z) : result A :=
  let j := if i <? 0 then i + len l else i in
  if j <? 0 then raise IndexError
  else match nth_error l (Z.to_nat j) with
       | Some a => ret a
       | None => raise IndexError
       end.

(** [cursor.fetchone()[0]] for a result set of one-column rows:
    [fetchone()] is [None] on an empty result set, and [None[0]] raises
    [TypeError]. *)
Definition fetchone_0 {A} (result_set : list A) : result A :=
  match result_set with
  | [] => raise TypeError
  | row :: _ => ret row
  end.

End Py.

Notation "x <- m ;; k" := (Py.bind m (fun x => k))
  (at level 61, m at next level, right associativity).

(** ** The store: tables [players] and [matches] *)

Record player : Type := mk_player
  { id : Z;
    name : string }.

Record match_record : Type := mk_match
  { match_id : Z;
    winner_id : Z;
    loser_id : Z;
    tournament_id : Z }.

(** The two serial columns ([players.id], [matches.match_id]) draw their
    values from a sequence each; [TRUNCATE] leaves a sequence where it is. *)
Record database : Type := mk_database
  { players : list player;
    matches : list match_record;
    players_id_seq : Z;
    matches_match_id_seq : Z }.

Definition empty_database : database :=
  {| players := []; matches := []; players_id_seq := 0;
     matches_match_id_seq := 0 |}.

(** Rows of the three views the standings query reads.  The column names
    are the ones the query uses: [games_won (id, name, wins)],
    [num_matches (id, games_played)] and [omw (x, opponent_wins)]. *)
Record games_won_row : Type := mk_games_won
  { gw_id : Z; gw_name : string; gw_wins : Z }.

Record num_matches_row : Type := mk_num_matches
  { nm_id : Z; nm_games_played : Z }.

Record omw_row : Type := mk_omw
  { omw_x : Z; omw_opponent_wins : Z }.

(** A view is a stored query: its rows are a function of the tables and
    of nothing else (the standings query passes it no parameter). *)
Record views : Type := mk_views
  { games_won : database -> list games_won_row;
    num_matches : database -> list num_matches_row;
    omw : database -> list omw_row }.

(** A row of the standings query before the final projection: the
    selected columns and [opponent_wins], which [ORDER BY] reads. *)
Record ranked_row : Type := mk_ranked
  { r_id : Z;
    r_name : string;
    r_wins : Z;
    r_opponent_wins : Z;
    r_games_played : Z }.

(** The tuple [(id, name, wins, matches)] that [player_standings] returns. *)
Record standing : Type := mk_standing
  { st_id : Z;
    st_name : string;
    st_wins : Z;
    st_matches : Z }.

(** The tuple [(id1, name1, id2, name2)] that [swiss_pairings] returns. *)
Record pairing : Type := mk_pairing
  { id1 : Z;
    name1 : string;
    id2 : Z;
    name2 : string }.

(** ** Writers *)

Inductive table : Type := Players | Matches.

(** Modelled from the spec: the foreign keys declared by the schema file
    [tournament.sql].  The matches table depends on the players table
    (module docstring, item 3 of the to-do list; docstring of
    [delete_players]); nothing depends on the matches table. *)
Definition references (child parent : table) : bool :=
  match child, parent with
  | Matches, Players => true
  | _, _ => false
  end.

Definition truncate_one (t : table) (db : database) : database :=
  match t with
  | Players => {| players := []; matches := matches db;
                  players_id_seq := players_id_seq db;
                  matches_match_id_seq := matches_match_id_seq db |}
  | Matches => {| players := players db; matches := [];
                  players_id_seq := players_id_seq db;
                  matches_match_id_seq := matches_match_id_seq db |}
  end.

(** [TRUNCATE t CASCADE]: empties [t] and every table holding a foreign
    key into [t].  (With two tables and one foreign key the closure is
    reached in one step.) *)
Definition truncate_cascade (t : table) (db : database) : database :=
  fold_right
    (fun child acc => if references child t then truncate_one child acc else acc)
    (truncate_one t db)
    [Players; Matches].

(** [delete_matches()]: [TRUNCATE matches;] *)
Definition delete_matches (db : database) : database :=
  truncate_one Matches db.

(** [delete_players()]: [TRUNCATE players CASCADE;] *)
Definition delete_players (db : database) : database :=
  truncate_cascade Players db.

(** [register_player(name)]:
    [INSERT INTO players(name) VALUES(%s) RETURNING id;] *)
Definition register_player (name : string) (db : database) : database * Z :=
  let return_id := players_id_seq db + 1 in
  ({| players := players db ++ [mk_player return_id name];
      matches := matches db;
      players_id_seq := return_id;
      matches_match_id_seq := matches_match_id_seq db |},
   return_id).

(** [report_match(winner, loser, tournament_id)]:
    [INSERT INTO matches (winner_id, loser_id, tournament_id)
     VALUES(%s, %s, %s);]  The function itself checks nothing about its
    arguments. *)
Definition report_match (winner loser tournament_id : Z) (db : database)
  : database :=
  let new_id := matches_match_id_seq db + 1 in
  {| players := players db;
     matches := matches db ++ [mk_match new_id winner loser tournament_id];
     players_id_seq := players_id_seq db;
     matches_match_id_seq := new_id |}.

(** ** Readers *)

(** [FROM matches WHERE matches.tournament_id = %s] *)
Definition matches_where_tournament (db : database) (t : Z)
  : list match_record :=
  filter (fun m => tournament_id m =? t) (matches db).

(** [SELECT COUNT(match_id) FROM matches WHERE matches.tournament_id = %s;]
    An aggregate without [GROUP BY] yields exactly one row. *)
Definition count_matches_query (db : database) (t : Z) : list Z :=
  [Py.len (matches_where_tournament db t)].

(** [SELECT id, name, 0, 0 FROM players;] *)
Definition registered_players_query (db : database) : list standing :=
  map (fun p => mk_standing (id p) (name p) 0 0) (players db).

(** [COALESCE(v, d)] *)
Definition coalesce (v : option Z) (d : Z) : Z :=
  match v with
  | Some z => z
  | None => d
  end.

(** [wins DESC, opponent_wins DESC, games_played ASC]: [a] may stand
    before [b]. *)
Definition rank_le (a b : ranked_row) : Prop :=
  r_wins a > r_wins b \/
  (r_wins a = r_wins b /\
   (r_opponent_wins a > r_opponent_wins b \/
    (r_opponent_wins a = r_opponent_wins b /\
     r_games_played a <= r_games_played b))).

Definition rank_leb (a b : ranked_row) : bool :=
  (r_wins b <? r_wins a) ||
  ((r_wins a =? r_wins b) &&
   ((r_opponent_wins b <? r_opponent_wins a) ||
    ((r_opponent_wins a =? r_opponent_wins b) &&
     (r_games_played a <=? r_games_played b)))).

(** [ORDER BY]: SQL fixes the order of rows only up to the sort key; the
    model keeps rows with equal keys in the order the join produced them. *)
Fixpoint order_insert (a : ranked_row) (l : list ranked_row)
  : list ranked_row :=
  match l with
  | [] => [a]
  | b :: l' => if rank_leb a b then a :: b :: l' else b :: order_insert a l'
  end.

Fixpoint order_by (l : list ranked_row) : list ranked_row :=
  match l with
  | [] => []
  | a :: l' => order_insert a (order_by l')
  end.

Section Standings.

Variable V : views.

(** [SELECT games_won.id AS id, name, CAST(wins AS INTEGER),
           COALESCE(opponent_wins, 0) AS opponent_wins
    FROM games_won LEFT JOIN omw ON id = x]
    Each row of [games_won] is joined with every row of [omw] whose
    [x] is its [id], or once with [NULL] when there is none.  The
    second component is [opponent_wins] after [COALESCE].  The casts to
    [INTEGER] change no count below [2^31] and are left out. *)
Definition subQuery (db : database) : list (games_won_row * Z) :=
  flat_map
    (fun g =>
       match filter (fun o => gw_id g =? omw_x o) (omw V db) with
       | [] => [(g, coalesce None 0)]
       | os => map (fun o => (g, coalesce (Some (omw_opponent_wins o)) 0)) os
       end)
    (games_won V db).

(** The string spliced into the [WHERE] clause, as the predicate on
    [games_played] it denotes. *)
Definition tournament_restriction (tournament_id : Z) : Z -> bool :=
  if negb (tournament_id =? 0) then (fun games_played => 0 <? games_played)
  else (fun _ => true).

(** [FROM num_matches, (...) AS subQuery
    WHERE (subQuery.id = num_matches.id) <restriction>] *)
Definition joined_rows (db : database) (restriction : Z -> bool)
  : list ranked_row :=
  flat_map
    (fun n =>
       flat_map
         (fun s : games_won_row * Z =>
            let (g, opponent_wins) := s in
            if (gw_id g =? nm_id n) && restriction (nm_games_played n)
            then [mk_ranked (gw_id g) (gw_name g) (gw_wins g)
                            opponent_wins (nm_games_played n)]
            else [])
         (subQuery db))
    (num_matches V db).

(** The rows of the standings query in the order [ORDER BY] puts them. *)
Definition standings_rows (db : database) (tournament_id : Z)
  : list ranked_row :=
  order_by (joined_rows db (tournament_restriction tournament_id)).

(** [SELECT subQuery.id, subQuery.name, wins,
           CAST(games_played AS INTEGER)] *)
Definition select_standing (r : ranked_row) : standing :=
  mk_standing (r_id r) (r_name r) (r_wins r) (r_games_played r).

Definition standings_query (db : database) (tournament_id : Z)
  : list standing :=
  map select_standing (standings_rows db tournament_id).

(** [player_standings(tournament_id=0)] *)
Definition player_standings (db : database) (tournament_id : Z)
  : Py.result (list standing) :=
  total_matches <- Py.fetchone_0 (count_matches_query db tournament_id) ;;
  if total_matches =? 0 then
    Py.ret (registered_players_query db)
  else
    Py.ret (standings_query db tournament_id).

End Standings.

(** [swiss_pairings]: the [while] loop.  [iii] runs over the odd indices
    below [len(standings)]; the distance to [len(standings)] decreases. *)
Equations? pairing_loop (standings : list standing) (iii : Z)
  (pairings : list pairing) : Py.result (list pairing)
  by wf (Z.to_nat (Py.len standings - iii)) lt :=
  pairing_loop standings iii pairings with Z_lt_dec iii (Py.len standings) => {
    | left _ =>
        tup1 <- Py.getitem standings (iii - 1) ;;
        tup2 <- Py.getitem standings iii ;;
        pairing_loop standings (iii + 2)
          (pairings ++ [mk_pairing (st_id tup1) (st_name tup1)
                                   (st_id tup2) (st_name tup2)]);
    | right _ => Py.ret pairings }.
Proof. lia. Qed.

(** [swiss_pairings(tournament_id=0)] *)
Definition swiss_pairings (V : views) (db : database) (tournament_id : Z)
  : Py.result (list pairing) :=
  standings <- player_standings V db tournament_id ;;
  pairing_loop standings 1 [].

(** [count_players(tournament_id=0)] *)
Definition count_players (db : database) (tournament_id : Z) : Py.result Z :=
  if tournament_id =? 0 then
    Py.fetchone_0 [Py.len (players db)]
  else
    Py.fetchone_0
      [Py.len
         (nodup Z.eq_dec
            (map winner_id (matches_where_tournament db tournament_id) ++
             map loser_id (matches_where_tournament db tournament_id)))].

(** ** The views *)

Definition sum_Z (l : list Z) : Z := fold_right Z.add 0 l.

(** Modelled from the spec: the view [games_won] of [tournament.sql], one
    row for every registered player; [wins] is the count of matches where
    the player is the winner. *)
Definition games_won_view (db : database) : list games_won_row :=
  map
    (fun p =>
       mk_games_won (id p) (name p)
         (Py.len (filter (fun m => winner_id m =? id p) (matches db))))
    (players db).

(** Modelled from the spec: the view [num_matches] of [tournament.sql],
    one row for every registered player; [games_played] is the count of
    matches where the player is winner or loser. *)
Definition num_matches_view (db : database) : list num_matches_row :=
  map
    (fun p =>
       mk_num_matches (id p)
         (Py.len
            (filter
               (fun m => (winner_id m =? id p) || (loser_id m =? id p))
               (matches db))))
    (players db).

(** Modelled from the spec: the distinct opponents a player has faced, as
    the view [omw] of [tournament.sql] needs them. *)
Definition opponents (db : database) (x : Z) : list Z :=
  nodup Z.eq_dec
    (flat_map
       (fun m =>
          (if winner_id m =? x then [loser_id m] else []) ++
          (if loser_id m =? x then [winner_id m] else []))
       (matches db)).

(** Modelled from the spec: an opponent's own [wins], read from
    [games_won] by the join on the opponent's id. *)
Definition wins_of (db : database) (q : Z) : Z :=
  sum_Z (map gw_wins (filter (fun g => gw_id g =? q) (games_won_view db))).

(** Modelled from the spec: the view [omw] of [tournament.sql], a row
    for every player found in a match; [opponent_wins] sums, over each
    distinct opponent faced by the player, that opponent's own [wins]. *)
Definition omw_view (db : database) : list omw_row :=
  map
    (fun x => mk_omw x (sum_Z (map (wins_of db) (opponents db x))))
    (nodup Z.eq_dec
       (flat_map (fun m => [winner_id m; loser_id m]) (matches db))).

Definition tournament_views : views :=
  {| games_won := games_won_view;
     num_matches := num_matches_view;
     omw := omw_view |}.

(** ** Reference functions used in the statements *)

(** The consecutive non-overlapping pairs of a sequence of standings:
    [(row[0], row[1])], [(row[2], row[3])], and so on; a last row without
    a partner belongs to no pair. *)
Fixpoint adjacent_pairs (standings : list standing) : list pairing :=
  match standings with
  | tup1 :: tup2 :: rest =>
      mk_pairing (st_id tup1) (st_name tup1) (st_id tup2) (st_name tup2)
      :: adjacent_pairs rest
  | _ => []
  end.

(** The player ids a list of pairings mentions, in order. *)
Definition paired_ids (pairings : list pairing) : list Z :=
  flat_map (fun p => [id1 p; id2 p]) pairings.

(** The rows [adjacent_pairs] leaves out: none, or the last one. *)
Fixpoint unpaired (standings : list standing) : list standing :=
  match standings with
  | _ :: _ :: rest => unpaired rest
  | l => l
  end.

(** The aggregates of a standings row as the specification words them:
    counted over the matches of one tournament. *)
Definition wins_in_scope (db : database) (t p : Z) : Z :=
  Py.len (filter (fun m => winner_id m =? p) (matches_where_tournament db t)).

Definition games_in_scope (db : database) (t p : Z) : Z :=
  Py.len
    (filter (fun m => (winner_id m =? p) || (loser_id m =? p))
       (matches_where_tournament db t)).

Definition opponents_in_scope (db : database) (t p : Z) : list Z :=
  nodup Z.eq_dec
    (flat_map
       (fun m =>
          (if winner_id m =? p then [loser_id m] else []) ++
          (if loser_id m =? p then [winner_id m] else []))
       (matches_where_tournament db t)).

Definition omw_in_scope (db : database) (t p : Z) : Z :=
  sum_Z (map (wins_in_scope db t) (opponents_in_scope db t p)).

(** Every player with a game in tournament [t] has a standings row, and
    each row of that player carries the counts of tournament [t]. *)
Definition counts_within_scope (V : views) (db : database) (t : Z) : Prop :=
  forall rows, player_standings V db t = inr rows ->
  forall p, 0 < games_in_scope db t p ->
    (exists row, In row rows /\ st_id row = p) /\
    (forall row, In row rows -> st_id row = p ->
       st_wins row = wins_in_scope db t p /\
       st_matches row = games_in_scope db t p).

(** Every row ranked for tournament [t] carries as [opponent_wins] the
    wins, within [t], of the distinct opponents its player faced in [t]. *)
Definition omw_within_scope (V : views) (db : database) (t : Z) : Prop :=
  forall r, In r (standings_rows V db t) ->
    r_opponent_wins r = omw_in_scope db t (r_id r).

(** The wins of the rows add up to the matches of tournament [t], the
    games played to twice as many. *)
Definition conservation (V : views) (db : database) (t : Z) : Prop :=
  forall rows, player_standings V db t = inr rows ->
    sum_Z (map st_wins rows) = Py.len (matches_where_tournament db t) /\
    sum_Z (map st_matches rows) = 2 * Py.len (matches_where_tournament db t).

(** ** Stores built through the library's own calls *)

(** [[register_player(x) for x in players]] *)
Definition register_players (names : list string) (db : database)
  : database :=
  fold_left (fun d x => fst (register_player x d)) names db.

Definition two_players : database :=
  register_players ["a"; "b"]%string empty_database.

Definition three_players : database :=
  register_players ["a"; "b"; "c"]%string empty_database.

Definition four_players : database :=
  register_players ["a"; "b"; "c"; "d"]%string empty_database.

(** Player 1 beats player 2 once in tournament 1 and twice in
    tournament 2. *)
Definition rematch_store : database :=
  report_match 1 2 2 (report_match 1 2 2 (report_match 1 2 1 two_players)).

(** One match in tournament 1, two matches between other players in
    tournament 2. *)
Definition two_tournaments_store : database :=
  report_match 4 3 2 (report_match 3 4 2 (report_match 1 2 1 four_players)).

(** One match in tournament 2 and nothing else. *)
Definition one_tournament_store : database :=
  report_match 1 2 2 three_players.

(** Player 1 beats player 2 in tournament 1 and loses to player 3 in
    tournament 2. *)
Definition other_opponent_store : database :=
  report_match 3 1 2 (report_match 1 2 1 three_players).

(** One match in tournament 0, between the first two of three players. *)
Definition first_round_store : database :=
  report_match 2 1 0 three_players.

(** ** Stores the library can produce *)

(** The stores reached from the empty one through the four writers. *)
Inductive reachable : database -> Prop :=
| reach_empty : reachable empty_database
| reach_register_player (name : string) (db : database) :
    reachable db -> reachable (fst (register_player name db))
| reach_report_match (winner loser t : Z) (db : database) :
    reachable db -> reachable (report_match winner loser t db)
| reach_delete_matches (db : database) :
    reachable db -> reachable (delete_matches db)
| reach_delete_players (db : database) :
    reachable db -> reachable (delete_players db).

(** Every serial value handed out so far lies below its sequence, and no
    value was handed out twice. *)
Definition ids_below_sequences (db : database) : Prop :=
  0 <= players_id_seq db /\
  0 <= matches_match_id_seq db /\
  (forall p, In p (players db) -> 0 < id p <= players_id_seq db) /\
  (forall m, In m (matches db) ->
     0 < match_id m <= matches_match_id_seq db) /\
  NoDup (map id (players db)) /\
  NoDup (map match_id (matches db)).

(** Winner and loser of every match are registered players. *)
Definition foreign_keys_hold (db : database) : Prop :=
  forall m, In m (matches db) ->
    In (winner_id m) (map id (players db)) /\
    In (loser_id m) (map id (players db)).

(** The ids [count_players] counts for a tournament other than 0, before
    [UNION] removes the duplicates. *)
Definition tournament_participants (db : database) (t : Z) : list Z :=
  map winner_id (matches_where_tournament db t) ++
  map loser_id (matches_where_tournament db t).

(** * Properties *)

(** ** [ORDER BY] *)

Lemma rank_leb_spec (a b : ranked_row) : rank_leb a b = true <-> rank_le a b.
Proof. unfold rank_leb, rank_le. lia. Qed.

Lemma rank_le_total (a b : ranked_row) : rank_le a b \/ rank_le b a.
Proof. unfold rank_le. lia. Qed.

Lemma rank_le_trans (a b c : ranked_row) :
  rank_le a b -> rank_le b c -> rank_le a c.
Proof. unfold rank_le. lia. Qed.

Lemma order_insert_perm (a : ranked_row) (l : list ranked_row) :
  Permutation (a :: l) (order_insert a l).
Proof.
  induction l as [|b l IH]; simpl.
  - apply Permutation_refl.
  - destruct (rank_leb a b).
    + apply Permutation_refl.
    + eapply perm_trans; [apply perm_swap|]. now apply perm_skip.
Qed.

Lemma order_by_perm (l : list ranked_row) : Permutation l (order_by l).
Proof.
  induction l as [|a l IH]; simpl.
  - constructor.
  - eapply perm_trans; [apply perm_skip, IH|]. apply order_insert_perm.
Qed.

Lemma order_insert_sorted (a : ranked_row) (l : list ranked_row) :
  StronglySorted rank_le l -> StronglySorted rank_le (order_insert a l).
Proof.
  induction 1 as [|b l Hl IH Hb]; simpl.
  - repeat constructor.
  - destruct (rank_leb a b) eqn:E.
    + apply rank_leb_spec in E.
      constructor; [now constructor|].
      constructor; [exact E|].
      eapply Forall_impl; [|exact Hb].
      intros c Hc. now apply rank_le_trans with b.
    + assert (Hba : rank_le b a).
      { destruct (rank_le_total a b) as [H|H]; [|exact H].
        apply rank_leb_spec in H. congruence. }
      constructor; [exact IH|].
      rewrite Forall_forall in *. intros x Hx.
      apply (Permutation_in _ (Permutation_sym (order_insert_perm a l))) in Hx.
      destruct Hx as [<-|Hx]; auto.
Qed.

Lemma order_by_sorted (l : list ranked_row) :
  StronglySorted rank_le (order_by l).
Proof.
  induction l as [|a l IH]; simpl.
  - constructor.
  - now apply order_insert_sorted.
Qed.

(** ** [player_standings] *)

Section StandingsFacts.

Variable V : views.

Lemma total_matches_fetched (db : database) (t : Z) :
  Py.fetchone_0 (count_matches_query db t)
  = inr (Py.len (matches_where_tournament db t)).
Proof. reflexivity. Qed.

Lemma player_standings_no_matches (db : database) (t : Z) :
  matches_where_tournament db t = [] ->
  player_standings V db t = inr (registered_players_query db).
Proof.
  intros H. unfold player_standings.
  rewrite total_matches_fetched, H. reflexivity.
Qed.

Lemma player_standings_some_matches (db : database) (t : Z) :
  matches_where_tournament db t <> [] ->
  player_standings V db t = inr (standings_query V db t).
Proof.
  intros H. unfold player_standings.
  rewrite total_matches_fetched. cbn [Py.bind].
  destruct (matches_where_tournament db t) as [|m l]; [congruence|].
  unfold Py.len. cbn [List.length].
  destruct (Z.eqb_spec (Z.of_nat (S (List.length l))) 0) as [E|_]; [lia|].
  reflexivity.
Qed.

(** Whatever the views hold, the general query is the same text for
    every tournament id other than 0: two such scopes with a match each
    get the same standings. *)
Lemma player_standings_scope_blind (db : database) (a b : Z) :
  a <> 0 -> b <> 0 ->
  matches_where_tournament db a <> [] ->
  matches_where_tournament db b <> [] ->
  player_standings V db a = player_standings V db b.
Proof.
  intros Ha Hb Hma Hmb.
  rewrite !player_standings_some_matches by assumption.
  unfold standings_query, standings_rows, tournament_restriction.
  destruct (Z.eqb_spec a 0), (Z.eqb_spec b 0); try contradiction.
  reflexivity.
Qed.

Lemma standings_rows_scope_blind (db : database) (a b : Z) :
  a <> 0 -> b <> 0 -> standings_rows V db a = standings_rows V db b.
Proof.
  intros Ha Hb. unfold standings_rows, tournament_restriction.
  destruct (Z.eqb_spec a 0), (Z.eqb_spec b 0); try contradiction.
  reflexivity.
Qed.

End StandingsFacts.

(** ** [swiss_pairings] *)

Lemma getitem_app (A : Type) (done rest : list A) (a : A) :
  Py.getitem (done ++ a :: rest) (Py.len done) = inr a.
Proof.
  unfold Py.getitem, Py.len. cbv zeta.
  assert (E : (Z.of_nat (List.length done) <? 0) = false)
    by (apply Z.ltb_ge; lia).
  rewrite !E, Nat2Z.id, nth_error_app2 by lia.
  rewrite Nat.sub_diag. reflexivity.
Qed.

Lemma getitem_nth_error (A : Type) (l : list A) (i : nat) :
  Py.getitem l (Z.of_nat i) =
  match nth_error l i with Some a => inr a | None => inl Py.IndexError end.
Proof.
  unfold Py.getitem. cbv zeta.
  assert (E : (Z.of_nat i <? 0) = false) by (apply Z.ltb_ge; lia).
  rewrite !E, Nat2Z.id.
  destruct (nth_error l i); reflexivity.
Qed.

Lemma pairing_loop_from (n : nat) :
  forall (done rest : list standing) (pairings : list pairing),
    (List.length rest < n)%nat ->
    pairing_loop (done ++ rest) (Py.len done + 1) pairings
    = inr (pairings ++ adjacent_pairs rest).
Proof.
  induction n as [|n IH]; intros done rest pairings Hn; [lia|].
  rewrite pairing_loop_equation_1.
  assert (Hlen : Py.len (done ++ rest) = Py.len done + Py.len rest)
    by (unfold Py.len; rewrite length_app; lia).
  destruct (Z_lt_dec (Py.len done + 1) (Py.len (done ++ rest))) as [Hlt|Hge];
    cbn [pairing_loop_unfold_clause_1];
    (destruct rest as [|a [|b rest]];
     cbn [List.length] in Hn;
     try (exfalso; unfold Py.len in *; cbn [List.length] in Hlen; lia)).
  - replace (Py.len done + 1 - 1) with (Py.len done) by lia.
    rewrite getitem_app. cbn [Py.bind].
    replace (Py.len done + 1) with (Py.len (done ++ [a]))
      by (unfold Py.len; rewrite length_app; cbn [List.length]; lia).
    replace (done ++ a :: b :: rest) with ((done ++ [a]) ++ b :: rest)
      by (rewrite <- app_assoc; reflexivity).
    rewrite getitem_app. cbn [Py.bind].
    replace ((done ++ [a]) ++ b :: rest) with ((done ++ [a; b]) ++ rest)
      by (rewrite <- !app_assoc; reflexivity).
    replace (Py.len (done ++ [a]) + 2) with (Py.len (done ++ [a; b]) + 1)
      by (unfold Py.len; rewrite !length_app; cbn [List.length]; lia).
    rewrite IH by lia.
    cbn [adjacent_pairs]. rewrite <- app_assoc. reflexivity.
  - cbn [adjacent_pairs]. now rewrite app_nil_r.
  - cbn [adjacent_pairs]. now rewrite app_nil_r.
Qed.

Lemma pairing_loop_adjacent (standings : list standing) :
  pairing_loop standings 1 [] = inr (adjacent_pairs standings).
Proof.
  exact (pairing_loop_from (S (List.length standings)) [] standings []
           (Nat.lt_succ_diag_r _)).
Qed.

Section PairInduction.

Variable A : Type.
Variable P : list A -> Prop.
Hypothesis P_nil : P [].
Hypothesis P_one : forall a, P [a].
Hypothesis P_two : forall a b l, P l -> P (a :: b :: l).

Lemma list_pair_ind (l : list A) : P l.
Proof.
  enough (H : P l /\ forall a, P (a :: l)) by apply H.
  induction l as [|b l [IH1 IH2]]; split; auto.
Qed.

End PairInduction.

Lemma adjacent_pairs_length (l : list standing) :
  Py.len (adjacent_pairs l) = Py.len l / 2.
Proof.
  unfold Py.len.
  induction l as [| a | a b l IH] using list_pair_ind; try reflexivity.
  cbn [adjacent_pairs List.length].
  rewrite !Nat2Z.inj_succ, IH.
  replace (Z.succ (Z.succ (Z.of_nat (List.length l))))
    with (Z.of_nat (List.length l) + 1 * 2) by lia.
  rewrite Z.div_add by lia. lia.
Qed.

Lemma adjacent_pairs_short (l : list standing) :
  Py.len l < 2 -> adjacent_pairs l = [].
Proof.
  destruct l as [|a [|b l]]; try reflexivity.
  unfold Py.len. cbn [List.length]. lia.
Qed.

Lemma adjacent_pairs_nth (i : nat) :
  forall (l : list standing) (p : pairing),
    nth_error (adjacent_pairs l) i = Some p ->
    exists tup1 tup2,
      nth_error l (2 * i) = Some tup1 /\
      nth_error l (2 * i + 1) = Some tup2 /\
      p = mk_pairing (st_id tup1) (st_name tup1) (st_id tup2) (st_name tup2).
Proof.
  induction i as [|i IH]; intros [|a [|b l]] p H; try discriminate.
  - exists a, b. cbn in H |- *. repeat split. congruence.
  - cbn [adjacent_pairs nth_error] in H.
    destruct (IH l p H) as (tup1 & tup2 & H1 & H2 & Hp).
    exists tup1, tup2.
    replace (2 * S i)%nat with (S (S (2 * i))) by lia.
    now repeat split.
Qed.

Lemma standings_ids_split (l : list standing) :
  map st_id l = paired_ids (adjacent_pairs l) ++ map st_id (unpaired l).
Proof.
  induction l as [| a | a b l IH] using list_pair_ind; try reflexivity.
  cbn [adjacent_pairs unpaired map]. unfold paired_ids in *.
  cbn [flat_map id1 id2 app]. now rewrite IH.
Qed.

Lemma unpaired_odd (l : list standing) :
  Z.odd (Py.len l) = true ->
  exists last, nth_error l (List.length l - 1) = Some last /\
               unpaired l = [last].
Proof.
  unfold Py.len.
  induction l as [| a | a b l IH] using list_pair_ind; intros H.
  - discriminate.
  - exists a. split; reflexivity.
  - cbn [List.length] in H. rewrite !Nat2Z.inj_succ, Z.odd_succ_succ in H.
    destruct (IH H) as (last & Hn & Hu). exists last. split; [|exact Hu].
    destruct l as [|c l]; [discriminate|].
    cbn [List.length Nat.sub nth_error] in *.
    now rewrite Nat.sub_0_r in *.
Qed.

(** ** Player ids in the standings

    With the views as modelled and a players table whose ids are
    distinct (the primary key), every standings list names each player
    at most once. *)

Lemma filter_key_at_most_one (A : Type) (f : A -> Z) (k : Z) (l : list A) :
  NoDup (map f l) ->
  (List.length (filter (fun o => (k =? f o)%Z) l) <= 1)%nat.
Proof.
  induction l as [|a l IH]; cbn [map filter List.length]; intros H; [lia|].
  inversion H as [|? ? Hnot Hnd]; subst.
  destruct (Z.eqb_spec k (f a)) as [->|_]; [|auto].
  destruct (filter (fun o => f a =? f o) l) as [|o os] eqn:E.
  - cbn. lia.
  - exfalso. apply Hnot.
    assert (Ho : In o (filter (fun o => f a =? f o) l))
      by (rewrite E; now left).
    apply filter_In in Ho as [Ho Hk]. apply Z.eqb_eq in Hk.
    rewrite Hk. now apply in_map.
Qed.

Lemma omw_view_keys_distinct (db : database) :
  NoDup (map omw_x (omw_view db)).
Proof.
  unfold omw_view. rewrite map_map. cbn [omw_x]. rewrite map_id.
  apply NoDup_nodup.
Qed.

Lemma subQuery_ids (db : database) :
  map (fun s => gw_id (fst s)) (subQuery tournament_views db)
  = map id (players db).
Proof.
  unfold subQuery. cbn [games_won omw tournament_views].
  unfold games_won_view. generalize (matches db) as ms.
  assert (Hkeys := omw_view_keys_distinct db).
  induction (players db) as [|p ps IH]; intros ms; [reflexivity|].
  cbn [map flat_map gw_id]. rewrite map_app, IH. clear IH.
  pose proof (filter_key_at_most_one _ omw_x (id p) (omw_view db) Hkeys) as H.
  destruct (filter (fun o => id p =? omw_x o) (omw_view db)) as [|o [|o' os]];
    cbn [List.length] in H; try lia; reflexivity.
Qed.

Lemma joined_row_ids (S : list (games_won_row * Z)) (c : Z -> bool)
  (n : num_matches_row) (x : Z) :
  In x
    (map r_id
       (flat_map
          (fun s : games_won_row * Z =>
             let (g, opponent_wins) := s in
             if (gw_id g =? nm_id n) && c (nm_games_played n)
             then [mk_ranked (gw_id g) (gw_name g) (gw_wins g)
                             opponent_wins (nm_games_played n)]
             else [])
          S)) ->
  x = nm_id n /\ In x (map (fun s => gw_id (fst s)) S).
Proof.
  induction S as [|[g ow] S IH]; cbn [flat_map map]; [intros []|].
  rewrite map_app, in_app_iff. intros [H|H].
  - destruct (Z.eqb_spec (gw_id g) (nm_id n)) as [E|_]; cbn [andb] in H.
    + destruct (c (nm_games_played n)); cbn in H; [|contradiction].
      destruct H as [<-|[]]. split; [exact E|now left].
    + contradiction.
  - destruct (IH H) as [H1 H2]. split; [exact H1|now right].
Qed.

Lemma joined_rows_ids_distinct (db : database) (c : Z -> bool) :
  NoDup (map id (players db)) ->
  NoDup (map r_id (joined_rows tournament_views db c)).
Proof.
  intros Hnd. unfold joined_rows.
  assert (HS : NoDup (map (fun s => gw_id (fst s))
                        (subQuery tournament_views db)))
    by now rewrite subQuery_ids.
  assert (HN : NoDup (map nm_id (num_matches tournament_views db))).
  { cbn [num_matches tournament_views]. unfold num_matches_view.
    rewrite map_map. exact Hnd. }
  revert HS HN.
  generalize (subQuery tournament_views db) as S.
  generalize (num_matches tournament_views db) as N.
  induction N as [|n N IH]; intros S HS HN; cbn [flat_map map]; [constructor|].
  inversion HN as [|? ? Hn HN']; subst.
  rewrite map_app. apply NoDup_app.
  - clear IH HN HN' Hn.
    induction S as [|[g ow] S IHS]; cbn [flat_map map]; [constructor|].
    inversion HS as [|? ? Hg HS']; subst. cbn [fst] in Hg.
    rewrite map_app. apply NoDup_app; [|now apply IHS|].
    + destruct ((gw_id g =? nm_id n) && c (nm_games_played n));
        repeat constructor. intros [].
    + intros x Hx Hx'.
      destruct ((gw_id g =? nm_id n) && c (nm_games_played n));
        [|contradiction].
      destruct Hx as [<-|[]]. cbn [r_id] in Hx'.
      apply joined_row_ids in Hx' as [_ Hx']. now apply Hg.
  - now apply IH.
  - intros x Hx Hx'.
    apply joined_row_ids in Hx as [-> _].
    apply Hn. clear -Hx'.
    induction N as [|n' N IH]; cbn [flat_map map] in Hx'; [contradiction|].
    rewrite map_app, in_app_iff in Hx'. destruct Hx' as [H|H].
    + apply joined_row_ids in H as [-> _]. now left.
    + right. now apply IH.
Qed.

Lemma player_standings_ids_distinct (db : database) (t : Z)
  (standings : list standing) :
  NoDup (map id (players db)) ->
  player_standings tournament_views db t = inr standings ->
  NoDup (map st_id standings).
Proof.
  intros Hnd H.
  destruct (matches_where_tournament db t) as [|m l] eqn:E.
  - rewrite player_standings_no_matches in H by exact E.
    injection H as <-. unfold registered_players_query.
    rewrite map_map. exact Hnd.
  - rewrite player_standings_some_matches in H by congruence.
    injection H as <-. unfold standings_query, standings_rows.
    rewrite map_map. cbn [select_standing st_id].
    eapply Permutation_NoDup.
    + apply Permutation_map, order_by_perm.
    + now apply joined_rows_ids_distinct.
Qed.

(** ** What the rows count

    With the views as modelled, a ranked row is the row of a registered
    player, and its two counts range over the whole matches table,
    whichever tournament was asked for. *)

Lemma subQuery_fst (db : database) (s : games_won_row * Z) :
  In s (subQuery tournament_views db) -> In (fst s) (games_won_view db).
Proof.
  unfold subQuery. cbn [games_won omw tournament_views].
  intros H. apply in_flat_map in H as (g & Hg & Hs).
  destruct (filter (fun o => gw_id g =? omw_x o) (omw_view db)) as [|o os].
  - destruct Hs as [<-|[]]. exact Hg.
  - apply in_map_iff in Hs as (o' & <- & _). exact Hg.
Qed.

Lemma standings_rows_counts (db : database) (t : Z) (r : ranked_row) :
  In r (standings_rows tournament_views db t) ->
  exists p,
    In p (players db) /\
    r_id r = id p /\
    r_name r = name p /\
    r_wins r
    = Py.len (filter (fun m => winner_id m =? id p) (matches db)) /\
    r_games_played r
    = Py.len
        (filter (fun m => (winner_id m =? id p) || (loser_id m =? id p))
           (matches db)).
Proof.
  unfold standings_rows. intros H.
  apply (Permutation_in _ (Permutation_sym (order_by_perm _))) in H.
  unfold joined_rows in H.
  apply in_flat_map in H as (n & Hn & H).
  apply in_flat_map in H as ([g ow] & Hs & H).
  apply subQuery_fst in Hs. cbn [fst] in Hs.
  destruct (Z.eqb_spec (gw_id g) (nm_id n)) as [E|_]; cbn [andb] in H;
    [|contradiction].
  destruct (tournament_restriction t (nm_games_played n)); [|contradiction].
  destruct H as [<-|[]]. cbn [r_id r_name r_wins r_games_played].
  unfold games_won_view in Hs. apply in_map_iff in Hs as (p & <- & Hp).
  cbn [num_matches tournament_views] in Hn. unfold num_matches_view in Hn.
  apply in_map_iff in Hn as (p' & <- & _).
  cbn [gw_id gw_name gw_wins nm_id nm_games_played] in *.
  exists p. rewrite <- E. repeat split. exact Hp.
Qed.

(** * The claims *)

(** C1.  Whenever the tournament has at least one recorded match, what
    [player_standings] returns is the projection of the joined rows put
    in order: no row is lost or added by the ordering, and each row
    stands before every later one under [wins] descending, then
    [opponent_wins] descending, then [games_played] ascending. *)
Theorem player_standings_sorted (V : views) (db : database) (t : Z) :
  0 < Py.len (matches_where_tournament db t) ->
  exists rows,
    player_standings V db t = inr (map select_standing rows) /\
    Permutation (joined_rows V db (tournament_restriction t)) rows /\
    StronglySorted rank_le rows.
Proof.
  intros H. exists (standings_rows V db t). split; [|split].
  - rewrite player_standings_some_matches; [reflexivity|].
    intros E. rewrite E in H. discriminate.
  - apply order_by_perm.
  - apply order_by_sorted.
Qed.

Lemma player_standings_sorted_witness :
  exists rows,
    player_standings tournament_views first_round_store 0
    = inr (map select_standing rows) /\
    Permutation
      (joined_rows tournament_views first_round_store
         (tournament_restriction 0)) rows /\
    StronglySorted rank_le rows.
Proof.
  apply (player_standings_sorted tournament_views first_round_store 0).
  reflexivity.
Defined.

(** C5.  With no match recorded under the tournament, whatever is
    recorded under other tournaments, [player_standings] returns every
    row of the players table with [wins = 0] and [matches = 0], in the
    table's order; that is what it returns once all matches are gone. *)
Theorem player_standings_bootstrap (V : views) (db : database) (t : Z) :
  Py.len (matches_where_tournament db t) = 0 ->
  player_standings V db t
  = inr (map (fun p => mk_standing (id p) (name p) 0 0) (players db)) /\
  player_standings V db t = player_standings V (delete_matches db) t.
Proof.
  intros H.
  assert (E : matches_where_tournament db t = []).
  { destruct (matches_where_tournament db t); [reflexivity|].
    unfold Py.len in H. cbn [List.length] in H. lia. }
  rewrite (player_standings_no_matches V db t E). split; reflexivity.
Qed.

Lemma player_standings_bootstrap_witness :
  player_standings tournament_views two_tournaments_store 5
  = inr (map (fun p => mk_standing (id p) (name p) 0 0)
           (players two_tournaments_store)) /\
  player_standings tournament_views two_tournaments_store 5
  = player_standings tournament_views (delete_matches two_tournaments_store) 5.
Proof.
  apply (player_standings_bootstrap tournament_views two_tournaments_store 5).
  reflexivity.
Defined.

(** C7, as the code has it.  [player_standings] raises nothing: for
    every store and every tournament id it returns a list of rows, the
    empty list when no player is registered and the tournament has no
    match. *)
Theorem player_standings_never_fails (V : views) (db : database) (t : Z) :
  exists rows,
    player_standings V db t = inr rows /\
    (players db = [] -> matches_where_tournament db t = [] -> rows = []).
Proof.
  destruct (matches_where_tournament db t) as [|m l] eqn:E.
  - exists (registered_players_query db). split.
    + now apply player_standings_no_matches.
    + intros Hp _. unfold registered_players_query. now rewrite Hp.
  - exists (standings_query V db t). split.
    + apply player_standings_some_matches. congruence.
    + discriminate.
Qed.

Lemma player_standings_never_fails_witness :
  exists rows,
    player_standings tournament_views empty_database 7 = inr rows /\
    rows = [].
Proof.
  destruct (player_standings_never_fails tournament_views empty_database 7)
    as (rows & H & Hempty).
  exists rows. split; [exact H | apply Hempty; reflexivity].
Defined.

(** C7, counterexample.  The tournament id 7 names no tournament and no
    player is registered, yet [player_standings] returns the empty list
    and raises nothing. *)
Lemma player_standings_empty_store_returns :
  players empty_database = [] /\
  matches_where_tournament empty_database 7 = [] /\
  player_standings tournament_views empty_database 7 = inr [] /\
  ~ (exists e, player_standings tournament_views empty_database 7 = inl e).
Proof.
  repeat split. intros [e He]. discriminate He.
Qed.

(** C10.  [delete_players] leaves both tables empty: truncating the
    players table cascades to the matches table. *)
Theorem delete_players_empties_both (db : database) :
  players (delete_players db) = [] /\ matches (delete_players db) = [].
Proof. split; reflexivity. Qed.

(** C4.  [swiss_pairings] pairs the standings it gets from
    [player_standings] two by two: it raises nothing, pairing [i] is made
    of the rows at ranks [2i] and [2i+1], there is a pairing for every
    such two ranks, and, the player ids of the standings being distinct,
    no id occurs twice among the pairings.  When the number of rows is
    odd the last row's player is in no pairing. *)
Theorem swiss_pairings_adjacent_ranks (V : views) (db : database) (t : Z)
  (standings : list standing) :
  player_standings V db t = inr standings ->
  NoDup (map st_id standings) ->
  exists pairings,
    swiss_pairings V db t = inr pairings /\
    Py.len pairings = Py.len standings / 2 /\
    (forall i, 0 <= i < Py.len pairings ->
       exists tup1 tup2,
         Py.getitem standings (2 * i) = inr tup1 /\
         Py.getitem standings (2 * i + 1) = inr tup2 /\
         Py.getitem pairings i
         = inr (mk_pairing (st_id tup1) (st_name tup1)
                           (st_id tup2) (st_name tup2))) /\
    NoDup (paired_ids pairings) /\
    (Z.odd (Py.len standings) = true ->
     exists last,
       Py.getitem standings (Py.len standings - 1) = inr last /\
       ~ In (st_id last) (paired_ids pairings)).
Proof.
  intros Hst Hnd. exists (adjacent_pairs standings).
  assert (Hsplit := standings_ids_split standings).
  rewrite Hsplit in Hnd.
  split; [|split; [|split; [|split]]].
  - unfold swiss_pairings. rewrite Hst. cbn [Py.bind].
    apply pairing_loop_adjacent.
  - apply adjacent_pairs_length.
  - intros i [Hi0 Hi].
    unfold Py.len in Hi.
    destruct (nth_error (adjacent_pairs standings) (Z.to_nat i)) as [p|] eqn:E.
    + destruct (adjacent_pairs_nth _ _ _ E) as (tup1 & tup2 & H1 & H2 & ->).
      exists tup1, tup2.
      replace (2 * i) with (Z.of_nat (2 * Z.to_nat i)) by lia.
      replace (Z.of_nat (2 * Z.to_nat i) + 1)
        with (Z.of_nat (2 * Z.to_nat i + 1)) by lia.
      replace i with (Z.of_nat (Z.to_nat i)) at 3 by lia.
      rewrite !getitem_nth_error, H1, H2, E. repeat split.
    + apply nth_error_None in E. lia.
  - now apply NoDup_app_remove_r in Hnd.
  - intros Hodd.
    destruct (unpaired_odd standings Hodd) as (last & Hn & Hu).
    exists last. split.
    + replace (Py.len standings - 1)
        with (Z.of_nat (List.length standings - 1)).
      * now rewrite getitem_nth_error, Hn.
      * unfold Py.len. destruct standings; [discriminate|].
        cbn [List.length]. lia.
    + rewrite Hu in Hnd. cbn [map] in Hnd.
      apply NoDup_remove_2 in Hnd. now rewrite app_nil_r in Hnd.
Qed.

Lemma swiss_pairings_adjacent_ranks_witness :
  exists pairings,
    swiss_pairings tournament_views first_round_store 0 = inr pairings /\
    Py.len pairings = 3 / 2 /\
    (forall i, 0 <= i < Py.len pairings ->
       exists tup1 tup2,
         Py.getitem
           [mk_standing 2 "b" 1 1; mk_standing 1 "a" 0 1;
            mk_standing 3 "c" 0 0] (2 * i) = inr tup1 /\
         Py.getitem
           [mk_standing 2 "b" 1 1; mk_standing 1 "a" 0 1;
            mk_standing 3 "c" 0 0] (2 * i + 1) = inr tup2 /\
         Py.getitem pairings i
         = inr (mk_pairing (st_id tup1) (st_name tup1)
                           (st_id tup2) (st_name tup2))) /\
    NoDup (paired_ids pairings) /\
    (Z.odd 3 = true ->
     exists last,
       Py.getitem
         [mk_standing 2 "b" 1 1; mk_standing 1 "a" 0 1;
          mk_standing 3 "c" 0 0] (3 - 1) = inr last /\
       ~ In (st_id last) (paired_ids pairings)).
Proof.
  apply (swiss_pairings_adjacent_ranks tournament_views first_round_store 0
           [mk_standing 2 "b" 1 1; mk_standing 1 "a" 0 1;
            mk_standing 3 "c" 0 0]).
  - reflexivity.
  - repeat (constructor; [cbn; lia|]). constructor.
Defined.

(** C9.  For standings of [n] rows [swiss_pairings] returns [n / 2]
    pairings, rounded down; with fewer than two rows it returns the empty
    list and raises nothing. *)
Theorem swiss_pairings_count (V : views) (db : database) (t : Z)
  (standings : list standing) :
  player_standings V db t = inr standings ->
  exists pairings,
    swiss_pairings V db t = inr pairings /\
    Py.len pairings = Py.len standings / 2 /\
    (Py.len standings < 2 -> pairings = []).
Proof.
  intros Hst. exists (adjacent_pairs standings). split; [|split].
  - unfold swiss_pairings. rewrite Hst. cbn [Py.bind].
    apply pairing_loop_adjacent.
  - apply adjacent_pairs_length.
  - apply adjacent_pairs_short.
Qed.

Lemma swiss_pairings_count_witness :
  exists pairings,
    swiss_pairings tournament_views
      (register_players ["a"%string] empty_database) 0 = inr pairings /\
    Py.len pairings = 1 / 2 /\
    (1 < 2 -> pairings = []).
Proof.
  apply (swiss_pairings_count tournament_views
           (register_players ["a"%string] empty_database) 0
           [mk_standing 1 "a" 0 0]).
  reflexivity.
Defined.

(** C2, at a failing input.  Player 1 beats player 2 once in tournament 1
    and twice in tournament 2.  Asked for tournament 1,
    [player_standings] reports three wins in three matches for player 1,
    where tournament 1 holds one win in one match.  No definition of the
    views can mend this: the counts of tournament 1 and those of
    tournament 2 differ, and both calls run the same query. *)
Theorem player_standings_counts_every_tournament :
  player_standings tournament_views rematch_store 1
  = inr [mk_standing 1 "a" 3 3; mk_standing 2 "b" 0 3] /\
  wins_in_scope rematch_store 1 1 = 1 /\
  games_in_scope rematch_store 1 1 = 1 /\
  games_in_scope rematch_store 1 2 = 1 /\
  forall V : views,
    ~ (counts_within_scope V rematch_store 1 /\
       counts_within_scope V rematch_store 2).
Proof.
  repeat split.
  intros V [H1 H2].
  pose (rows := standings_query V rematch_store 1).
  assert (Hr : player_standings V rematch_store 1 = inr rows)
    by (apply player_standings_some_matches; discriminate).
  assert (Hr2 : player_standings V rematch_store 2 = inr rows).
  { rewrite <- Hr. symmetry.
    apply player_standings_scope_blind; discriminate. }
  destruct (H1 rows Hr 1) as [(row & Hin & Hid) Hc1]; [reflexivity|].
  destruct (H2 rows Hr2 1) as [_ Hc2]; [reflexivity|].
  destruct (Hc1 row Hin Hid) as [Hw1 _].
  destruct (Hc2 row Hin Hid) as [Hw2 _].
  rewrite Hw1 in Hw2. discriminate Hw2.
Qed.

(** C3, at a failing input.  Player 1 beats player 2 in tournament 1 and
    loses to player 3 in tournament 2.  In the rows ranked for
    tournament 1, player 1 has [opponent_wins = 1], the win of player 3
    in tournament 2; within tournament 1 the only opponent is player 2,
    who has no win.  Whatever the views hold, they cannot list player 1
    in tournament 1 and give the opponent wins of each of the two
    tournaments: both calls rank the same rows. *)
Theorem opponent_wins_counts_every_tournament :
  standings_rows tournament_views other_opponent_store 1
  = [mk_ranked 3 "c" 1 1 1; mk_ranked 1 "a" 1 1 2; mk_ranked 2 "b" 0 1 1] /\
  player_standings tournament_views other_opponent_store 1
  = inr (map select_standing
           (standings_rows tournament_views other_opponent_store 1)) /\
  opponents_in_scope other_opponent_store 1 1 = [2] /\
  omw_in_scope other_opponent_store 1 1 = 0 /\
  forall V : views,
    ~ (counts_within_scope V other_opponent_store 1 /\
       omw_within_scope V other_opponent_store 1 /\
       omw_within_scope V other_opponent_store 2).
Proof.
  repeat split.
  intros V (Hc & H1 & H2).
  assert (Hr : player_standings V other_opponent_store 1
               = inr (standings_query V other_opponent_store 1))
    by (apply player_standings_some_matches; discriminate).
  destruct (Hc _ Hr 1) as [(row & Hin & Hid) _]; [reflexivity|].
  unfold standings_query in Hin.
  apply in_map_iff in Hin as (r & <- & Hin). cbn [select_standing st_id] in Hid.
  pose proof (H1 r Hin) as E1.
  rewrite (standings_rows_scope_blind V other_opponent_store 1 2) in Hin
    by discriminate.
  pose proof (H2 r Hin) as E2.
  rewrite Hid in E1, E2. rewrite E1 in E2. discriminate E2.
Qed.

(** C6, at a failing input.  Tournament 2 holds one match, player 1
    beating player 2.  Recording a win of player 3 over player 1 under
    tournament 1 changes the standings and the pairings of
    tournament 2.  Whatever the views hold, they cannot give each
    tournament its own counts and keep the standings of tournament 2 as
    they were. *)
Theorem report_match_changes_other_tournament :
  player_standings tournament_views one_tournament_store 2
  = inr [mk_standing 1 "a" 1 1; mk_standing 2 "b" 0 1] /\
  player_standings tournament_views (report_match 3 1 1 one_tournament_store) 2
  = inr [mk_standing 3 "c" 1 1; mk_standing 1 "a" 1 2;
         mk_standing 2 "b" 0 1] /\
  swiss_pairings tournament_views one_tournament_store 2
  = inr [mk_pairing 1 "a" 2 "b"] /\
  swiss_pairings tournament_views (report_match 3 1 1 one_tournament_store) 2
  = inr [mk_pairing 3 "c" 1 "a"] /\
  forall V : views,
    ~ (counts_within_scope V one_tournament_store 2 /\
       counts_within_scope V (report_match 3 1 1 one_tournament_store) 1 /\
       player_standings V (report_match 3 1 1 one_tournament_store) 2
       = player_standings V one_tournament_store 2).
Proof.
  repeat split.
  intros V (H0 & H1 & Hsame).
  set (after := report_match 3 1 1 one_tournament_store) in *.
  assert (Hr1 : player_standings V after 1 = inr (standings_query V after 1))
    by (apply player_standings_some_matches; discriminate).
  assert (Hr0 : player_standings V one_tournament_store 2
                = inr (standings_query V after 1)).
  { rewrite <- Hsame, <- Hr1.
    apply player_standings_scope_blind; discriminate. }
  destruct (H1 _ Hr1 1) as [(row & Hin & Hid) Hc1]; [reflexivity|].
  destruct (H0 _ Hr0 1) as [_ Hc0]; [reflexivity|].
  destruct (Hc1 row Hin Hid) as [Hw1 _].
  destruct (Hc0 row Hin Hid) as [Hw0 _].
  rewrite Hw1 in Hw0. discriminate Hw0.
Qed.

(** C8, at a failing input.  Tournament 1 holds one match, tournament 2
    two.  The rows returned for tournament 1 sum to three wins and six
    games played.  No definition of the views can mend this: both calls
    run the same query, and the two tournaments differ in their number
    of matches. *)
Theorem player_standings_sums_every_tournament :
  Py.len (matches_where_tournament two_tournaments_store 1) = 1 /\
  (exists rows,
     player_standings tournament_views two_tournaments_store 1 = inr rows /\
     sum_Z (map st_wins rows) = 3 /\
     sum_Z (map st_matches rows) = 6) /\
  forall V : views,
    ~ (conservation V two_tournaments_store 1 /\
       conservation V two_tournaments_store 2).
Proof.
  split; [reflexivity|]. split.
  - eexists. repeat split.
  - intros V [H1 H2].
    pose (rows := standings_query V two_tournaments_store 1).
    assert (Hr : player_standings V two_tournaments_store 1 = inr rows)
      by (apply player_standings_some_matches; discriminate).
    assert (Hr2 : player_standings V two_tournaments_store 2 = inr rows).
    { rewrite <- Hr. symmetry.
      apply player_standings_scope_blind; discriminate. }
    destruct (H1 rows Hr) as [Hw1 _].
    destruct (H2 rows Hr2) as [Hw2 _].
    rewrite Hw1 in Hw2. discriminate Hw2.
Qed.


(** * Further properties of the library *)

(** ** Helper facts *)

Lemma count_players_all (db : database) :
  count_players db 0 = inr (Py.len (players db)).
Proof. reflexivity. Qed.

Lemma count_players_tournament (db : database) (t : Z) :
  t <> 0 ->
  count_players db t
  = inr (Py.len (nodup Z.eq_dec (tournament_participants db t))).
Proof.
  intros Ht. unfold count_players.
  destruct (Z.eqb_spec t 0) as [E|_]; [contradiction|]. reflexivity.
Qed.

Lemma nodup_length_le (l : list Z) :
  (List.length (nodup Z.eq_dec l) <= List.length l)%nat.
Proof.
  apply NoDup_incl_length; [apply NoDup_nodup|].
  intros x Hx. now apply nodup_In in Hx.
Qed.

Lemma matches_where_tournament_report (winner loser a b : Z) (db : database) :
  matches_where_tournament (report_match winner loser a db) b
  = matches_where_tournament db b ++
    (if a =? b
     then [mk_match (matches_match_id_seq db + 1) winner loser a]
     else []).
Proof.
  unfold matches_where_tournament, report_match. cbn [matches].
  rewrite filter_app. cbn [filter tournament_id]. reflexivity.
Qed.


Lemma unpaired_even (l : list standing) :
  Z.even (Py.len l) = true -> unpaired l = [].
Proof.
  unfold Py.len.
  induction l as [| a | a b l IH] using list_pair_ind; intros H.
  - reflexivity.
  - discriminate.
  - cbn [List.length] in H. rewrite !Nat2Z.inj_succ, Z.even_succ_succ in H.
    exact (IH H).
Qed.

Lemma ids_below_sequences_reachable (db : database) :
  reachable db -> ids_below_sequences db.
Proof.
  induction 1 as [| n db _ IH | w l t db _ IH | db _ IH | db _ IH].
  - split; [cbn; lia|]. split; [cbn; lia|].
    split; [intros p []|]. split; [intros m []|]. split; constructor.
  - destruct IH as (H0p & H0m & Hp & Hm & Hnp & Hnm).
    unfold ids_below_sequences.
    cbn [register_player fst players matches players_id_seq
         matches_match_id_seq].
    split; [lia|]. split; [exact H0m|].
    split; [|split; [exact Hm|split; [|exact Hnm]]].
    + intros p H.
      apply in_app_or in H as [H|[<-|[]]]; [apply Hp in H; lia|cbn; lia].
    + rewrite map_app.
      apply NoDup_app; [exact Hnp|repeat constructor; intros []|].
      intros x Hx [<-|[]].
      apply in_map_iff in Hx as (p & E & Hin). apply Hp in Hin.
      cbn [id] in E. lia.
  - destruct IH as (H0p & H0m & Hp & Hm & Hnp & Hnm).
    unfold ids_below_sequences.
    cbn [report_match players matches players_id_seq matches_match_id_seq].
    split; [exact H0p|]. split; [lia|].
    split; [exact Hp|split; [|split; [exact Hnp|]]].
    + intros m H.
      apply in_app_or in H as [H|[<-|[]]]; [apply Hm in H; lia|cbn; lia].
    + rewrite map_app.
      apply NoDup_app; [exact Hnm|repeat constructor; intros []|].
      intros x Hx [<-|[]].
      apply in_map_iff in Hx as (m & E & Hin). apply Hm in Hin.
      cbn [match_id] in E. lia.
  - destruct IH as (H0p & H0m & Hp & Hm & Hnp & Hnm).
    split; [exact H0p|]. split; [exact H0m|].
    split; [exact Hp|]. split; [intros m []|]. split; [exact Hnp|constructor].
  - destruct IH as (H0p & H0m & _).
    split; [exact H0p|]. split; [exact H0m|].
    split; [intros p []|]. split; [intros m []|]. split; constructor.
Qed.

(** ** Resetting the store *)

(** X1.  After [delete_matches] every tournament is back before its
    first round: [player_standings] lists every registered player with
    no win and no match, [count_players] still counts the registered
    players for tournament 0 and counts nobody for any other. *)
Theorem delete_matches_resets_standings (V : views) (db : database) (t : Z) :
  player_standings V (delete_matches db) t
  = inr (map (fun p => mk_standing (id p) (name p) 0 0) (players db)) /\
  count_players (delete_matches db) t
  = inr (if t =? 0 then Py.len (players db) else 0).
Proof.
  split.
  - now rewrite player_standings_no_matches.
  - unfold count_players. destruct (t =? 0); reflexivity.
Qed.

(** X2.  After [delete_players] nothing is left to report, whatever the
    tournament: [count_players] is 0, [player_standings] and
    [swiss_pairings] return the empty list, and none of them raises. *)
Theorem delete_players_resets_everything (V : views) (db : database) (t : Z) :
  count_players (delete_players db) t = inr 0 /\
  player_standings V (delete_players db) t = inr [] /\
  swiss_pairings V (delete_players db) t = inr [].
Proof.
  assert (H : player_standings V (delete_players db) t = inr [])
    by now rewrite player_standings_no_matches.
  split; [|split; [exact H|]].
  - unfold count_players. destruct (t =? 0); reflexivity.
  - unfold swiss_pairings. rewrite H. cbn [Py.bind].
    apply pairing_loop_adjacent.
Qed.

(** X3.  [delete_players] already does what [delete_matches] does:
    calling [delete_matches] before or after it changes nothing. *)
Theorem delete_matches_absorbed_by_delete_players (db : database) :
  delete_players (delete_matches db) = delete_players db /\
  delete_matches (delete_players db) = delete_players db.
Proof. split; reflexivity. Qed.

(** ** [count_players] *)


(** X5.  For a tournament other than 0, [count_players] raises nothing;
    it returns at most two players for each match of the tournament, and
    0 exactly when the tournament has no match. *)
Theorem count_players_tournament_bounds (db : database) (t : Z) :
  t <> 0 ->
  exists n,
    count_players db t = inr n /\
    0 <= n <= 2 * Py.len (matches_where_tournament db t) /\
    (n = 0 <-> matches_where_tournament db t = []).
Proof.
  intros Ht. rewrite (count_players_tournament db t Ht).
  eexists. split; [reflexivity|].
  pose proof (nodup_length_le (tournament_participants db t)) as Hle.
  unfold tournament_participants in *.
  rewrite length_app, !length_map in Hle.
  unfold Py.len. split; [lia|]. split.
  - intros H0.
    destruct (matches_where_tournament db t) as [|m ms]; [reflexivity|].
    exfalso.
    assert (Hin : In (winner_id m)
                    (nodup Z.eq_dec
                       (map winner_id (m :: ms) ++ map loser_id (m :: ms))))
      by (apply nodup_In; now left).
    destruct (nodup Z.eq_dec
                (map winner_id (m :: ms) ++ map loser_id (m :: ms)));
      [destruct Hin|discriminate H0].
  - intros ->. reflexivity.
Qed.

Lemma count_players_tournament_bounds_witness :
  exists n,
    count_players two_tournaments_store 2 = inr n /\
    0 <= n <= 2 * Py.len (matches_where_tournament two_tournaments_store 2) /\
    (n = 0 <-> matches_where_tournament two_tournaments_store 2 = []).
Proof.
  apply (count_players_tournament_bounds two_tournaments_store 2).
  discriminate.
Defined.

(** X6.  Recording a match under one tournament leaves the count of
    players of every other tournament as it was. *)
Theorem count_players_other_tournament_unchanged
  (winner loser a b : Z) (db : database) :
  a <> b ->
  count_players (report_match winner loser a db) b = count_players db b.
Proof.
  intros Hab. unfold count_players.
  rewrite matches_where_tournament_report.
  destruct (Z.eqb_spec a b) as [E|_]; [contradiction|].
  now rewrite app_nil_r.
Qed.

Lemma count_players_other_tournament_unchanged_witness :
  count_players (report_match 3 1 1 one_tournament_store) 2
  = count_players one_tournament_store 2.
Proof.
  apply (count_players_other_tournament_unchanged 3 1 1 2 one_tournament_store).
  discriminate.
Defined.

(** X7.  When winner and loser of every match are registered players,
    no tournament has more players than are registered. *)
Theorem count_players_within_registered (db : database) (t : Z) :
  foreign_keys_hold db ->
  exists n registered,
    count_players db t = inr n /\
    count_players db 0 = inr registered /\
    n <= registered.
Proof.
  intros Hfk. destruct (Z.eq_dec t 0) as [->|Ht].
  - exists (Py.len (players db)), (Py.len (players db)).
    repeat split. lia.
  - rewrite (count_players_tournament db t Ht), count_players_all.
    do 2 eexists. split; [reflexivity|]. split; [reflexivity|].
    unfold Py.len. apply inj_le.
    rewrite <- (length_map id (players db)).
    apply NoDup_incl_length; [apply NoDup_nodup|].
    intros x Hx. apply nodup_In in Hx. unfold tournament_participants in Hx.
    apply in_app_or in Hx as [Hx|Hx];
      apply in_map_iff in Hx as (m & <- & Hm);
      apply filter_In in Hm as [Hm _]; now apply Hfk.
Qed.

Lemma count_players_within_registered_witness :
  exists n registered,
    count_players two_tournaments_store 2 = inr n /\
    count_players two_tournaments_store 0 = inr registered /\
    n <= registered.
Proof.
  apply (count_players_within_registered two_tournaments_store 2).
  intros m Hm. cbn in Hm.
  repeat (destruct Hm as [<-|Hm]; [cbn; split; lia|]). destruct Hm.
Defined.



(** ** [player_standings] and [swiss_pairings] across tournaments *)

(** X9.  Whatever the views hold, two tournaments other than 0 that both
    have a match get the same standings and the same pairings: the
    general query does not mention the tournament. *)
Theorem standings_same_for_nonzero_tournaments
  (V : views) (db : database) (a b : Z) :
  a <> 0 -> b <> 0 ->
  matches_where_tournament db a <> [] ->
  matches_where_tournament db b <> [] ->
  player_standings V db a = player_standings V db b /\
  swiss_pairings V db a = swiss_pairings V db b.
Proof.
  intros Ha Hb Hma Hmb.
  assert (H : player_standings V db a = player_standings V db b)
    by now apply player_standings_scope_blind.
  split; [exact H|]. unfold swiss_pairings. now rewrite H.
Qed.

Lemma standings_same_for_nonzero_tournaments_witness :
  player_standings tournament_views rematch_store 1
  = player_standings tournament_views rematch_store 2 /\
  swiss_pairings tournament_views rematch_store 1
  = swiss_pairings tournament_views rematch_store 2.
Proof.
  apply (standings_same_for_nonzero_tournaments tournament_views
           rematch_store 1 2); discriminate.
Defined.

(** X10.  Recording a match under one tournament leaves the standings
    and the pairings of another tournament as they were, as long as that
    other tournament has no match of its own. *)
Theorem report_match_keeps_empty_tournaments
  (V : views) (winner loser a b : Z) (db : database) :
  a <> b ->
  matches_where_tournament db b = [] ->
  player_standings V (report_match winner loser a db) b
  = player_standings V db b /\
  swiss_pairings V (report_match winner loser a db) b
  = swiss_pairings V db b.
Proof.
  intros Hab Hb.
  assert (H : player_standings V (report_match winner loser a db) b
              = player_standings V db b).
  { rewrite !player_standings_no_matches; [reflexivity|exact Hb|].
    rewrite matches_where_tournament_report, Hb.
    destruct (Z.eqb_spec a b) as [E|_]; [contradiction|reflexivity]. }
  split; [exact H|]. unfold swiss_pairings. now rewrite H.
Qed.

Lemma report_match_keeps_empty_tournaments_witness :
  player_standings tournament_views (report_match 3 1 1 one_tournament_store) 5
  = player_standings tournament_views one_tournament_store 5 /\
  swiss_pairings tournament_views (report_match 3 1 1 one_tournament_store) 5
  = swiss_pairings tournament_views one_tournament_store 5.
Proof.
  apply (report_match_keeps_empty_tournaments tournament_views 3 1 1 5
           one_tournament_store).
  - discriminate.
  - reflexivity.
Defined.

(** ** Registration *)





(** ** Pairings of an even number of players *)

(** X13.  When the standings have an even number of rows, the pairings
    name every player of the standings, each once and in standings
    order. *)
Theorem swiss_pairings_even_covers_all
  (V : views) (db : database) (t : Z) (standings : list standing) :
  player_standings V db t = inr standings ->
  Z.even (Py.len standings) = true ->
  exists pairings,
    swiss_pairings V db t = inr pairings /\
    paired_ids pairings = map st_id standings.
Proof.
  intros Hst Heven. exists (adjacent_pairs standings). split.
  - unfold swiss_pairings. rewrite Hst. cbn [Py.bind].
    apply pairing_loop_adjacent.
  - rewrite (standings_ids_split standings), (unpaired_even _ Heven).
    cbn [map]. now rewrite app_nil_r.
Qed.

Lemma swiss_pairings_even_covers_all_witness :
  exists pairings,
    swiss_pairings tournament_views one_tournament_store 2 = inr pairings /\
    paired_ids pairings
    = map st_id [mk_standing 1 "a" 1 1; mk_standing 2 "b" 0 1].
Proof.
  apply (swiss_pairings_even_covers_all tournament_views
           one_tournament_store 2
           [mk_standing 1 "a" 1 1; mk_standing 2 "b" 0 1]);
    reflexivity.
Defined.

(** ** Serial ids *)

(** X14.  In every store the library's writers can produce from the
    empty one, no two players share an id and no two matches share a
    match id. *)
Theorem reachable_ids_distinct (db : database) :
  reachable db ->
  NoDup (map id (players db)) /\ NoDup (map match_id (matches db)).
Proof.
  intros H. apply ids_below_sequences_reachable in H.
  destruct H as (_ & _ & _ & _ & Hp & Hm). now split.
Qed.

Lemma reachable_ids_distinct_witness :
  NoDup (map id (players one_tournament_store)) /\
  NoDup (map match_id (matches one_tournament_store)).
Proof.
  apply (reachable_ids_distinct one_tournament_store).
  apply reach_report_match.
  apply (reach_register_player "c").
  apply (reach_register_player "b").
  apply (reach_register_player "a").
  apply reach_empty.
Defined.



(** ** What the general query returns, whatever the views hold *)

Lemma Permutation_filter (A : Type) (f : A -> bool) (l l' : list A) :
  Permutation l l' -> Permutation (filter f l) (filter f l').
Proof.
  induction 1 as [| x l l' _ IH | x y l | l l' l'' _ IH1 _ IH2];
    cbn [filter].
  - constructor.
  - destruct (f x); [now constructor|exact IH].
  - destruct (f x), (f y); try apply Permutation_refl. apply perm_swap.
  - now apply perm_trans with (filter f l').
Qed.

Lemma joined_rows_restricted (V : views) (db : database) :
  joined_rows V db (fun games_played => 0 <? games_played)
  = filter (fun r => 0 <? r_games_played r)
      (joined_rows V db (fun _ => true)).
Proof.
  unfold joined_rows.
  induction (num_matches V db) as [|n N IH]; [reflexivity|].
  cbn [flat_map]. rewrite filter_app, IH. f_equal. clear IH.
  induction (subQuery V db) as [|[g ow] S IH]; [reflexivity|].
  cbn [flat_map]. rewrite filter_app, IH. f_equal.
  destruct (gw_id g =? nm_id n); cbn [andb]; [|reflexivity].
  cbn [filter r_games_played].
  destruct (0 <? nm_games_played n); reflexivity.
Qed.

Lemma StronglySorted_map (A B : Type) (R : A -> A -> Prop)
  (R' : B -> B -> Prop) (f : A -> B) (l : list A) :
  (forall a b, R a b -> R' (f a) (f b)) ->
  StronglySorted R l -> StronglySorted R' (map f l).
Proof.
  intros HR. induction 1 as [|a l _ IH Ha]; cbn [map]; constructor.
  - exact IH.
  - apply Forall_map. eapply Forall_impl; [|exact Ha]. intros b. apply HR.
Qed.

(** X16.  When tournament 0 and another tournament both have a match,
    the standings of the other tournament are the rows of the standings
    of tournament 0 that show at least one match played, nothing more
    and nothing less. *)
Theorem standings_of_tournament_are_played_rows
  (V : views) (db : database) (t : Z) :
  t <> 0 ->
  matches_where_tournament db t <> [] ->
  matches_where_tournament db 0 <> [] ->
  exists rows0 rows,
    player_standings V db 0 = inr rows0 /\
    player_standings V db t = inr rows /\
    Permutation rows (filter (fun s => 0 <? st_matches s) rows0).
Proof.
  intros Ht Hmt Hm0.
  exists (standings_query V db 0), (standings_query V db t).
  split; [now apply player_standings_some_matches|].
  split; [now apply player_standings_some_matches|].
  unfold standings_query, standings_rows, tournament_restriction.
  destruct (Z.eqb_spec t 0) as [E|_]; [contradiction|].
  cbn [Z.eqb negb]. rewrite joined_rows_restricted, filter_map_swap.
  cbn [select_standing st_matches]. apply Permutation_map.
  eapply perm_trans; [apply Permutation_sym, order_by_perm|].
  apply Permutation_filter, order_by_perm.
Qed.

Lemma standings_of_tournament_are_played_rows_witness :
  exists rows0 rows,
    player_standings tournament_views
      (report_match 2 1 0 one_tournament_store) 0 = inr rows0 /\
    player_standings tournament_views
      (report_match 2 1 0 one_tournament_store) 2 = inr rows /\
    Permutation rows (filter (fun s => 0 <? st_matches s) rows0).
Proof.
  apply (standings_of_tournament_are_played_rows tournament_views
           (report_match 2 1 0 one_tournament_store) 2); discriminate.
Defined.

(** X17.  When the tournament has a match, the list [player_standings]
    returns never rises in wins: every row has at least as many wins as
    each row after it, so the first entry is in first place or tied for
    it. *)
Theorem player_standings_wins_never_rise
  (V : views) (db : database) (t : Z) :
  matches_where_tournament db t <> [] ->
  exists rows,
    player_standings V db t = inr rows /\
    StronglySorted (fun a b => st_wins a >= st_wins b) rows.
Proof.
  intros Hm. exists (standings_query V db t).
  split; [now apply player_standings_some_matches|].
  unfold standings_query, standings_rows.
  apply StronglySorted_map with (R := rank_le); [|apply order_by_sorted].
  intros a b. unfold rank_le. cbn [select_standing st_wins]. lia.
Qed.

Lemma player_standings_wins_never_rise_witness :
  exists rows,
    player_standings tournament_views two_tournaments_store 1 = inr rows /\
    StronglySorted (fun a b => st_wins a >= st_wins b) rows.
Proof.
  apply (player_standings_wins_never_rise tournament_views
           two_tournaments_store 1).
  discriminate.
Defined.
